(** * Expert LLM Helper (app.py): a shallow embedding and its properties

    The program is a Streamlit script: every user interaction re-runs the
    module top to bottom.  One run reads the credential, halts when it is
    missing, draws the page, and on a submission either warns about blank
    input or calls [query_llm], which resolves the persona, builds a
    two-message prompt and sends it through the cached [ChatOpenAI] handle.

    Python [str] values are sequences of Unicode code points, so a string is
    a [list N] here; the literals of the source file are written as UTF-8
    string literals and decoded with [u], as the Python reader does.  Effects
    (the widgets drawn, the client constructed, the request sent, the cache
    kept by [st.cache_resource]) are threaded through a small state and
    exception monad. *)

From Stdlib Require Import List NArith ZArith QArith Bool Ascii String Lia.
Import ListNotations.

Local Open Scope N_scope.
Local Open Scope list_scope.

(** ** Python strings *)

Module Py.

(** A [str]: the code points, in order. *)
Definition str := list N.

Definition bytes_of (s : string) : list N :=
  map N_of_ascii (list_ascii_of_string s).

(** UTF-8 decoding of a well-formed byte sequence: [need] continuation
    bytes are still expected for the code point accumulated in [acc]. *)
Fixpoint utf8_decode (bs : list N) (need : nat) (acc : N) : str :=
  match bs with
  | [] => []
  | b :: r =>
      match need with
      | O =>
          if b <? 128 then b :: utf8_decode r 0 0
          else if b <? 224 then utf8_decode r 1 (b - 192)
          else if b <? 240 then utf8_decode r 2 (b - 224)
          else utf8_decode r 3 (b - 240)
      | S n =>
          let acc' := acc * 64 + (b - 128) in
          match n with
          | O => acc' :: utf8_decode r 0 0
          | S _ => utf8_decode r n acc'
          end
      end
  end.

(** A source-file literal. *)
Definition u (s : string) : str := utf8_decode (bytes_of s) 0 0.
Arguments u : simpl never.

Definition str_eqb (a b : str) : bool :=
  if list_eq_dec N.eq_dec a b then true else false.

(** Truth value of a [str]: only the empty string is false. *)
Definition truthy (s : str) : bool :=
  match s with [] => false | _ :: _ => true end.

(** [str.isspace] on one code point: the characters CPython's
    [_PyUnicode_IsWhitespace] accepts. *)
Definition isspace (c : N) : bool :=
  ((9 <=? c) && (c <=? 13)) || ((28 <=? c) && (c <=? 32))
  || (c =? 133) || (c =? 160) || (c =? 5760)
  || ((8192 <=? c) && (c <=? 8202))
  || (c =? 8232) || (c =? 8233) || (c =? 8239) || (c =? 8287)
  || (c =? 12288).

Fixpoint lstrip (s : str) : str :=
  match s with
  | [] => []
  | c :: r => if isspace c then lstrip r else s
  end.

Definition rstrip (s : str) : str := rev (lstrip (rev s)).

(** [s.strip()] with no argument. *)
Definition strip (s : str) : str := rstrip (lstrip s).

(** A [dict] with [str] keys, in insertion order. *)
Definition dict (V : Type) := list (str * V).

Fixpoint lookup {V} (d : dict V) (k : str) : option V :=
  match d with
  | [] => None
  | (k', v) :: r => if str_eqb k' k then Some v else lookup r k
  end.

(** [d.get(k, default)]. *)
Definition get {V} (d : dict V) (k : str) (default : V) : V :=
  match lookup d k with Some v => v | None => default end.

(** [list(d.keys())]. *)
Definition keys {V} (d : dict V) : list str := map fst d.

End Py.

Import Py.

(** ** Exceptions and results *)

(** What a library call raises is an instance of [Exception]; [exn_str] is
    its [str()].  [st.stop()] ends the run through Streamlit's script-control
    signal, which is no [Exception] and which [except Exception] lets pass:
    it is the separate outcome [Stop]. *)
Record exn := Exn { exn_str : str }.

Inductive result (A : Type) :=
| Ok (a : A)
| Raise (e : exn)
| Stop.
Arguments Ok {A} a.
Arguments Raise {A} e.
Arguments Stop {A}.

Definition rbind {A B} (r : result A) (f : A -> result B) : result B :=
  match r with
  | Ok a => f a
  | Raise e => Raise e
  | Stop => Stop
  end.

(** ** The LangChain pieces the program uses *)

Module LangChain.

Inductive role := system | human.

Inductive message :=
| SystemMessage (content : str)
| HumanMessage (content : str).

(** *** f-string templates

    Every message of [ChatPromptTemplate.from_messages] is a template in
    Python's format-string syntax: a doubled brace stands for one brace,
    [{name}] for the value of the variable [name], and a brace on its own
    is a [ValueError].  The program's templates hold no conversion or
    format specification, so a field is read as its name up to the closing
    brace. *)
Inductive piece :=
| Lit (c : N)
| Field (name : str).

Definition template := list piece.

Definition lbrace : N := 123.
Definition rbrace : N := 125.

Definition then_piece (p : piece) (r : result template) : result template :=
  rbind r (fun t => Ok (p :: t)).

(** [field] is [Some acc] while a field name is being read, [acc] holding
    its characters so far, last one first. *)
Fixpoint parse (s : str) (field : option str) : result template :=
  match s with
  | [] =>
      match field with
      | None => Ok []
      | Some _ => Raise (Exn (u "expected '}' before end of string"))
      end
  | c :: t =>
      match field with
      | Some acc =>
          if c =? rbrace then then_piece (Field (rev acc)) (parse t None)
          else if c =? lbrace
          then Raise (Exn (u "unexpected '{' in field name"))
          else parse t (Some (c :: acc))
      | None =>
          if c =? lbrace then
            match t with
            | c' :: t' =>
                if c' =? lbrace then then_piece (Lit lbrace) (parse t' None)
                else parse t (Some [])
            | [] => Raise (Exn (u "Single '{' encountered in format string"))
            end
          else if c =? rbrace then
            match t with
            | c' :: t' =>
                if c' =? rbrace then then_piece (Lit rbrace) (parse t' None)
                else Raise (Exn (u "Single '}' encountered in format string"))
            | [] => Raise (Exn (u "Single '}' encountered in format string"))
            end
          else then_piece (Lit c) (parse t None)
      end
  end.

(** Formatting: a variable's value is inserted as it is, and is not read
    as a template again; a variable without a value is a [KeyError]. *)
Fixpoint format (t : template) (kwargs : dict str) : result str :=
  match t with
  | [] => Ok []
  | Lit c :: r => rbind (format r kwargs) (fun s => Ok (c :: s))
  | Field name :: r =>
      match lookup kwargs name with
      | Some v => rbind (format r kwargs) (fun s => Ok (v ++ s))
      | None => Raise (Exn name)
      end
  end.

Definition ChatPromptTemplate := list (role * template).

(** [ChatPromptTemplate.from_messages]: each [(role, text)] pair becomes a
    message template. *)
Fixpoint from_messages (ms : list (role * str)) : result ChatPromptTemplate :=
  match ms with
  | [] => Ok []
  | (r, s) :: rest =>
      rbind (parse s None) (fun t =>
      rbind (from_messages rest) (fun p => Ok ((r, t) :: p)))
  end.

Definition make_message (r : role) (content : str) : message :=
  match r with
  | system => SystemMessage content
  | human => HumanMessage content
  end.

(** What invoking the prompt on the input mapping yields: the messages,
    in the order of the templates. *)
Fixpoint format_messages (p : ChatPromptTemplate) (kwargs : dict str)
  : result (list message) :=
  match p with
  | [] => Ok []
  | (r, t) :: rest =>
      rbind (format t kwargs) (fun s =>
      rbind (format_messages rest kwargs) (fun ms =>
      Ok (make_message r s :: ms)))
  end.

(** The client handle: the object [ChatOpenAI(...)] returns, holding the
    arguments it was built from.  [temperature] is the decimal literal of
    the source, [timeout] is in seconds. *)
Record ChatOpenAI := {
  api_key : option str;
  model : str;
  temperature : Q;
  timeout : Z
}.

End LangChain.

Import LangChain.

(** ** One run of the script: inputs, trace and state *)

(** What the world hands to one run: the environment, the secret store, the
    state of the widgets, and the answer of the hosted model to the request
    the run may send. *)
Inductive reply :=
| Text (content : str)
| Fails (e : exn).

Record run_input := {
  (** [os.getenv("OPENAI_API_KEY")]; [None] when the variable is unset *)
  getenv_OPENAI_API_KEY : option str;
  (** [st.secrets["OPENAI_API_KEY"]]; [None] when the lookup raises (no
      secrets file, no such key) *)
  secrets_OPENAI_API_KEY : option str;
  (** index of the radio option the user has selected *)
  radio_index : nat;
  (** content of the text area *)
  text_area_value : str;
  (** whether this run was caused by the submit button *)
  form_submitted : bool;
  (** the model's completion for a request, or the error the client raises *)
  completion : ChatOpenAI -> list message -> reply
}.

(** What a run does that can be seen from outside: the Streamlit elements it
    draws (with their text; layout arguments are left out), the construction
    of the client and the request sent through it. *)
Inductive event :=
| st_set_page_config (page_title : str)
| st_error (body : str)
| st_title (body : str)
| st_expander (label : str)
| st_markdown (body : str)
| st_radio (label : str) (options : list str)
| st_form (key : str)
| st_text_area (label : str)
| st_form_submit_button (label : str)
| st_warning (body : str)
| st_spinner (text : str)
| st_write (body : str)
| new_ChatOpenAI (llm : ChatOpenAI)
| llm_invoke (llm : ChatOpenAI) (messages : list message).

(** The state that outlives a run is the store of [st.cache_resource] for
    [get_llm]; [trace] lists the events so far, oldest first. *)
Record state := {
  llm_cache : option ChatOpenAI;
  trace : list event
}.

Definition M (A : Type) := state -> result A * state.

Definition ret {A} (a : A) : M A := fun s => (Ok a, s).

Definition bind {A B} (m : M A) (f : A -> M B) : M B :=
  fun s =>
    match m s with
    | (Ok a, s') => f a s'
    | (Raise e, s') => (Raise e, s')
    | (Stop, s') => (Stop, s')
    end.

Notation "x <- m ;; k" := (bind m (fun x => k))
  (at level 61, m at next level, right associativity).
Notation "m ;; k" := (bind m (fun _ => k))
  (at level 61, right associativity).

Definition lift {A} (r : result A) : M A := fun s => (r, s).

Definition emit (e : event) : M unit :=
  fun s => (Ok tt, {| llm_cache := llm_cache s; trace := trace s ++ [e] |}).

(** [try: body  except Exception as e: handler e]. *)
Definition try_except {A} (body : M A) (handler : exn -> M A) : M A :=
  fun s =>
    match body s with
    | (Raise e, s') => handler e s'
    | r => r
    end.

(** [st.stop()]. *)
Definition st_stop {A} : M A := fun s => (Stop, s).

(** ** app.py *)

Definition nl : str := [10].
Definition dquote : str := [34].

Definition PAGE_TITLE : str := u "Expert LLM Helper".

(** *** The API key: environment first, then the secrets *)

(** Truth value of a value that is [None] or a [str]. *)
Definition is_set (k : option str) : bool :=
  match k with
  | Some s => truthy s
  | None => false
  end.

(** Lines 21-26: the secrets are read only when the environment gave
    nothing, and a failing read leaves [None]. *)
Definition resolve_OPENAI_API_KEY (i : run_input) : option str :=
  let OPENAI_API_KEY := getenv_OPENAI_API_KEY i in
  if negb (is_set OPENAI_API_KEY)
  then secrets_OPENAI_API_KEY i
  else OPENAI_API_KEY.

Definition MISSING_KEY_MESSAGE : str :=
  u "OPENAI_API_KEY が未設定です。" ++ nl
  ++ u "・ローカル/VSCode: ターミナルで `set OPENAI_API_KEY=sk-...`（一時）または `setx OPENAI_API_KEY "
  ++ dquote ++ u "sk-..." ++ dquote ++ u "`（永続）" ++ nl
  ++ u "・Streamlit Cloud: App settings → Secrets に `OPENAI_API_KEY = "
  ++ dquote ++ u "sk-..." ++ dquote ++ u "` を保存" ++ nl.

(** Lines 28-35. *)
Definition missing_key_guard (OPENAI_API_KEY : option str) : M unit :=
  if negb (is_set OPENAI_API_KEY) then
    emit (st_set_page_config PAGE_TITLE) ;;
    emit (st_error MISSING_KEY_MESSAGE) ;;
    st_stop
  else ret tt.

(** *** The cached client *)

Definition MODEL : str := u "gpt-4o-mini".

(** [get_llm] under [@st.cache_resource]: the body runs when the store is
    empty and its result is kept; afterwards the stored object is returned
    and the body does not run.  The script reaches [get_llm] only past the
    guard of lines 28-35, with the key set, and that is the call embedded
    here: what the constructor does without a key is not, and the
    properties of [query_llm] below take the key to be set. *)
Definition get_llm (OPENAI_API_KEY : option str) : M ChatOpenAI :=
  fun s =>
    match llm_cache s with
    | Some llm => (Ok llm, s)
    | None =>
        let llm := {| api_key := OPENAI_API_KEY;
                      model := MODEL;
                      temperature := 3 # 10;
                      timeout := 60 |} in
        (Ok llm, {| llm_cache := Some llm;
                    trace := trace s ++ [new_ChatOpenAI llm] |})
    end.

(** *** The personas *)

Definition PERSONAS : dict str :=
  [ (u "コンプライアンス（保険業）",
     u "あなたは生命保険業界のコンプライアンス専門家です。"
     ++ u "保険業法・当局ガイドライン・社内規程の観点から、"
     ++ u "潜在リスク・必要な社内手続・留意点を、根拠を示しつつ簡潔に助言してください。"
     ++ u "不確実な点は推測せず、確認すべき一次情報と部署を提示してください。");
    (u "データサイエンス",
     u "あなたはビジネス課題を分析で解くデータサイエンス専門家です。"
     ++ u "目的定義→データ要件→前処理→特徴量→モデル選定→評価指標→運用化の順で、"
     ++ u "現場で再現可能なステップを具体的に提案してください。");
    (u "CX/サービスデザイン",
     u "あなたはCX/サービスデザインの専門家です。"
     ++ u "ペルソナ・ジャーニー・価値仮説・MVP・検証方法・KPIを整理し、"
     ++ u "実装優先度（High/Medium/Low）付きで改善案を提示してください。") ].

Definition DEFAULT_SYSTEM_MSG : str :=
  u "あなたは有能なアシスタントです。簡潔かつ具体的に答えてください。".

(** *** query_llm *)

(** The model's answer as [chain.invoke] hands it back: the text of the
    completion, or the client's exception. *)
Definition of_reply (r : reply) : result str :=
  match r with
  | Text content => Ok content
  | Fails e => Raise e
  end.

(** Lines 69-89.  The client is fetched while the chain is put together;
    invoking the chain formats the two templates with the input mapping,
    sends the messages and returns the text of the answer. *)
Definition query_llm (i : run_input) (OPENAI_API_KEY : option str)
    (input_text persona_key : str) : M str :=
  let system_msg := get PERSONAS persona_key DEFAULT_SYSTEM_MSG in
  prompt <- lift (from_messages [ (system, system_msg);
                                  (human, u "{user_input}") ]) ;;
  llm <- get_llm OPENAI_API_KEY ;;
  messages <- lift (format_messages prompt [ (u "user_input", input_text) ]) ;;
  emit (llm_invoke llm messages) ;;
  lift (of_reply (completion i llm messages)).

(** *** The page *)

Definition HELP_TEXT : str :=
  nl
  ++ u "**できること**  " ++ nl
  ++ u "- テキスト入力と**専門家の種類**の選択に基づき、LLMが専門家視点で回答します。" ++ nl
  ++ nl
  ++ u "**使い方**  " ++ nl
  ++ u "1. 左（または上）のラジオで **専門家の種類** を選択  " ++ nl
  ++ u "2. 下のテキスト欄に相談内容を入力  " ++ nl
  ++ u "3. **送信** をクリック → 回答が表示されます" ++ nl
  ++ nl
  ++ u "**注意**  " ++ nl
  ++ u "- 本出力は支援情報です。重要事項は一次情報で必ず確認し、関係部署レビューを受けてください。" ++ nl
  ++ u "        ".

(** [st.radio(label, options)]: the widget is drawn and the option at the
    selected index is returned.  The widget only lets the user select among
    its options; for an index past them, which no selection gives, the
    computation here ends with an [IndexError], and a property below that
    depends on the selection takes it among the options. *)
Definition radio (label : str) (options : list str) (selected : nat) : M str :=
  emit (st_radio label options) ;;
  match nth_error options selected with
  | Some o => ret o
  | None => lift (Raise (Exn (u "list index out of range")))
  end.

Definition RADIO_LABEL : str := u "専門家の種類を選択してください：".
Definition WARNING_TEXT : str := u "テキストを入力してください。".
Definition SPINNER_TEXT : str := u "LLMに問い合わせ中…".
Definition ANSWER_HEADING : str := u "### 📝 回答".
Definition ERROR_PREFIX : str := u "エラーが発生しました: ".

(** Lines 125-135. *)
Definition submit_handler (i : run_input) (OPENAI_API_KEY : option str)
    (submitted : bool) (user_text persona : str) : M unit :=
  if submitted then
    if negb (truthy (strip user_text)) then
      emit (st_warning WARNING_TEXT)
    else
      emit (st_spinner SPINNER_TEXT) ;;
      try_except
        (answer <- query_llm i OPENAI_API_KEY user_text persona ;;
         emit (st_markdown ANSWER_HEADING) ;;
         emit (st_write answer))
        (fun e => emit (st_error (ERROR_PREFIX ++ exn_str e)))
  else ret tt.

(** Lines 92-135: the page and the handling of a submission. *)
Definition main_ui (i : run_input) (OPENAI_API_KEY : option str) : M unit :=
  emit (st_set_page_config PAGE_TITLE) ;;
  emit (st_title (u "🤖 Expert LLM Helper")) ;;
  emit (st_expander (u "ℹ️ アプリ概要・操作方法（必読）")) ;;
  emit (st_markdown HELP_TEXT) ;;
  persona <- radio RADIO_LABEL (keys PERSONAS) (radio_index i) ;;
  emit (st_form (u "input_form")) ;;
  emit (st_text_area (u "入力テキスト")) ;;
  let user_text := text_area_value i in
  emit (st_form_submit_button (u "送信")) ;;
  let submitted := form_submitted i in
  submit_handler i OPENAI_API_KEY submitted user_text persona.

(** One run of the module, top to bottom. *)
Definition app_py (i : run_input) : M unit :=
  let OPENAI_API_KEY := resolve_OPENAI_API_KEY i in
  missing_key_guard OPENAI_API_KEY ;;
  main_ui i OPENAI_API_KEY.

(** The runs of one server process, one after the other: the cache store
    carries over from run to run, whatever way a run ended. *)
Fixpoint session (runs : list run_input) (s : state) : state :=
  match runs with
  | [] => s
  | i :: rest => session rest (snd (app_py i s))
  end.

Definition initial : state := {| llm_cache := None; trace := [] |}.

(** ** Observing a run *)

(** The events a computation adds to the trace of the state it starts in. *)
Definition run_events {A} (m : M A) (s : state) : list event :=
  skipn (List.length (trace s)) (trace (snd (m s))).

(** The requests sent to the model, in order. *)
Fixpoint requests (t : list event) : list (list message) :=
  match t with
  | [] => []
  | llm_invoke _ messages :: r => messages :: requests r
  | _ :: r => requests r
  end.

(** The handles that were constructed, in order. *)
Fixpoint constructions (t : list event) : list ChatOpenAI :=
  match t with
  | [] => []
  | new_ChatOpenAI llm :: r => llm :: constructions r
  | _ :: r => constructions r
  end.

(** The handles requests went through, in order. *)
Fixpoint handles_used (t : list event) : list ChatOpenAI :=
  match t with
  | [] => []
  | llm_invoke llm _ :: r => llm :: handles_used r
  | _ :: r => handles_used r
  end.

(** Text that is empty or holds whitespace only. *)
Definition blank (s : str) : bool := forallb isspace s.

(** The handle [get_llm] returns in state [s], and the construction event it
    adds on the way. *)
Definition client (OPENAI_API_KEY : option str) (s : state) : ChatOpenAI :=
  match llm_cache s with
  | Some llm => llm
  | None => {| api_key := OPENAI_API_KEY;
               model := MODEL;
               temperature := 3 # 10;
               timeout := 60 |}
  end.

Definition construction (OPENAI_API_KEY : option str) (s : state)
  : list event :=
  match llm_cache s with
  | Some _ => []
  | None => [new_ChatOpenAI (client OPENAI_API_KEY s)]
  end.

(** The widgets of the page, up to the submit button. *)
Definition page_events : list event :=
  [ st_set_page_config PAGE_TITLE;
    st_title (u "🤖 Expert LLM Helper");
    st_expander (u "ℹ️ アプリ概要・操作方法（必読）");
    st_markdown HELP_TEXT;
    st_radio RADIO_LABEL (keys PERSONAS);
    st_form (u "input_form");
    st_text_area (u "入力テキスト");
    st_form_submit_button (u "送信") ].

(** A template text without braces. *)
Definition no_brace (s : str) : bool :=
  forallb (fun c => negb (c =? lbrace) && negb (c =? rbrace)) s.

(** A state with more events in its trace. *)
Definition with_events (s : state) (l : list event) : state :=
  {| llm_cache := llm_cache s; trace := trace s ++ l |}.

(** The configuration the source fixes at construction. *)
Definition fixed_config (llm : ChatOpenAI) : Prop :=
  model llm = u "gpt-4o-mini"
  /\ temperature llm = 3 # 10
  /\ timeout llm = 60%Z.

(** The store and the trace of a process agree: the store holds the one
    handle that was constructed, if any, and every request went through
    it. *)
Definition cache_consistent (s : state) : Prop :=
  constructions (trace s)
  = match llm_cache s with Some llm => [llm] | None => [] end
  /\ (forall llm, In llm (handles_used (trace s)) -> llm_cache s = Some llm)
  /\ (forall llm, In llm (constructions (trace s)) -> fixed_config llm).

(** A submission with the key in the environment: the text, the selected
    option and the answer of the model are given. *)
Definition submission (text : str) (selected : nat) (r : reply) : run_input :=
  {| getenv_OPENAI_API_KEY := Some (u "sk-test");
     secrets_OPENAI_API_KEY := None;
     radio_index := selected;
     text_area_value := text;
     form_submitted := true;
     completion := fun _ _ => r |}.

(** Sample runs. *)
Definition blank_text : str := u "   " ++ nl ++ u "　".
Definition padded_text : str :=
  u "  first line" ++ nl ++ u "second line  " ++ nl.
Definition template_like_text : str :=
  u "  {user_input} {{x}} <b>&amp;</b> \ " ++ nl.

Definition ok : reply := Text (u "ok").
Definition connection_error : exn := Exn (u "Connection error.").

Definition blank_submission : run_input := submission blank_text 0 ok.
Definition empty_submission : run_input := submission [] 0 ok.
Definition padded_submission : run_input := submission padded_text 1 ok.
Definition failing_submission : run_input :=
  submission (u "hello") 1 (Fails connection_error).

Definition run_without_key : run_input :=
  {| getenv_OPENAI_API_KEY := None;
     secrets_OPENAI_API_KEY := None;
     radio_index := 0;
     text_area_value := u "hello";
     form_submitted := true;
     completion := fun _ _ => ok |}.

(** Whether a run gets as far as sending a request: the key is there, the
    form was submitted, the text is not blank and the selected index is one
    of the options. *)
Definition sends_request (i : run_input) : bool :=
  is_set (resolve_OPENAI_API_KEY i)
  && form_submitted i
  && negb (blank (text_area_value i))
  && Nat.ltb (radio_index i) (List.length (keys PERSONAS)).

Definition is_page_config (e : event) : bool :=
  match e with
  | st_set_page_config _ => true
  | _ => false
  end.

(** More sample runs: the key in the secrets only, behind an empty
    environment variable; another key in the environment; a run that is no
    submission. *)
Definition secret_key_submission : run_input :=
  {| getenv_OPENAI_API_KEY := Some [];
     secrets_OPENAI_API_KEY := Some (u "sk-secret");
     radio_index := 2;
     text_area_value := u "hello";
     form_submitted := true;
     completion := fun _ _ => ok |}.

Definition other_key_submission : run_input :=
  {| getenv_OPENAI_API_KEY := Some (u "sk-other");
     secrets_OPENAI_API_KEY := None;
     radio_index := 0;
     text_area_value := u "again";
     form_submitted := true;
     completion := fun _ _ => ok |}.

Definition idle_run : run_input :=
  {| getenv_OPENAI_API_KEY := Some (u "sk-test");
     secrets_OPENAI_API_KEY := None;
     radio_index := 1;
     text_area_value := u "typed, not sent";
     form_submitted := false;
     completion := fun _ _ => ok |}.

(** ** Strings and dictionaries *)

Section PyFacts.

Lemma str_eqb_eq (a b : str) : str_eqb a b = true <-> a = b.
Proof.
  unfold str_eqb. destruct (list_eq_dec N.eq_dec a b); split;
    congruence.
Qed.

Lemma str_eqb_refl (a : str) : str_eqb a a = true.
Proof. now apply str_eqb_eq. Qed.

Context {V : Type}.

Lemma lookup_In (d : dict V) k v : lookup d k = Some v -> In (k, v) d.
Proof.
  induction d as [|[k' v'] d IH]; simpl; [discriminate|].
  destruct (str_eqb k' k) eqn:E.
  - apply str_eqb_eq in E. intros [= ->]. left. now subst.
  - intros H. right. now apply IH.
Qed.

Lemma lookup_key (d : dict V) k :
  In k (keys d) -> exists v, lookup d k = Some v.
Proof.
  induction d as [|[k' v'] d IH]; simpl; [tauto|].
  intros [<-|H].
  - rewrite str_eqb_refl. eauto.
  - destruct (str_eqb k' k); eauto.
Qed.

Lemma lookup_not_key (d : dict V) k :
  ~ In k (keys d) -> lookup d k = None.
Proof.
  intros H. destruct (lookup d k) eqn:E; [|reflexivity].
  exfalso. apply H. apply lookup_In in E.
  unfold keys. apply in_map_iff. now exists (k, v).
Qed.

Lemma get_found (d : dict V) k v default :
  lookup d k = Some v -> get d k default = v.
Proof. unfold get. now intros ->. Qed.

Lemma get_missing (d : dict V) k default :
  ~ In k (keys d) -> get d k default = default.
Proof. intros H. unfold get. now rewrite lookup_not_key. Qed.

End PyFacts.

Section Strip.

Lemma lstrip_blank s : blank s = true -> lstrip s = [].
Proof.
  unfold blank. induction s as [|c r IH]; simpl; [easy|].
  destruct (isspace c); simpl; [exact IH|discriminate].
Qed.

Lemma lstrip_head s :
  lstrip s = [] \/ exists c r, lstrip s = c :: r /\ isspace c = false.
Proof.
  induction s as [|c r IH]; simpl; [now left|].
  destruct (isspace c) eqn:E; [exact IH|].
  right. now exists c, r.
Qed.

Lemma lstrip_nil s : lstrip s = [] -> blank s = true.
Proof.
  unfold blank. induction s as [|c r IH]; simpl; [easy|].
  destruct (isspace c); simpl; [exact IH|discriminate].
Qed.

Lemma blank_rev s : blank (rev s) = blank s.
Proof.
  unfold blank. induction s as [|c r IH]; simpl; [easy|].
  rewrite forallb_app, IH. simpl. rewrite andb_true_r. apply andb_comm.
Qed.

(** The emptiness test of the submit handler: the stripped text is empty
    exactly when the text is blank. *)
Lemma strip_truthy s : truthy (strip s) = negb (blank s).
Proof.
  unfold strip, rstrip.
  destruct (blank s) eqn:B.
  - now rewrite (lstrip_blank s B).
  - simpl. destruct (lstrip s) as [|c r] eqn:L.
    + apply lstrip_nil in L. congruence.
    + destruct (lstrip (rev (c :: r))) as [|c' r'] eqn:L'.
      * apply lstrip_nil in L'. rewrite blank_rev in L'.
        destruct (lstrip_head s) as [H|(c0 & r0 & H & Hc)];
          rewrite L in H; [discriminate|].
        injection H as <- <-. unfold blank in L'. simpl in L'.
        rewrite Hc in L'. discriminate.
      * destruct (rev (c' :: r')) eqn:R; [|reflexivity].
        apply (f_equal (@List.length N)) in R.
        rewrite length_rev in R. discriminate.
Qed.

End Strip.

(** ** Templates *)

Section Templates.

(** A text without braces is a template of literals only ... *)
Lemma parse_no_brace s :
  no_brace s = true -> parse s None = Ok (map Lit s).
Proof.
  unfold no_brace. induction s as [|c r IH]; simpl; [reflexivity|].
  intros H. apply andb_prop in H as [Hc Hr].
  apply andb_prop in Hc as [Hl Hrb].
  apply negb_true_iff in Hl, Hrb. rewrite Hl, Hrb.
  rewrite (IH Hr). reflexivity.
Qed.

(** ... and formats to itself, whatever the variables. *)
Lemma format_literals s kwargs : format (map Lit s) kwargs = Ok s.
Proof.
  induction s as [|c r IH]; simpl; [reflexivity|]. now rewrite IH.
Qed.

Lemma parse_user_input :
  parse (u "{user_input}") None = Ok [Field (u "user_input")].
Proof. vm_compute. reflexivity. Qed.

(** The one variable is replaced by its value, character for character. *)
Lemma format_user_input text :
  format [Field (u "user_input")] [(u "user_input", text)] = Ok text.
Proof.
  cbn [format lookup]. rewrite str_eqb_refl. cbn [rbind].
  now rewrite app_nil_r.
Qed.

Lemma registry_no_brace :
  forallb (fun kv => no_brace (snd kv)) PERSONAS = true
  /\ no_brace DEFAULT_SYSTEM_MSG = true.
Proof. split; vm_compute; reflexivity. Qed.

(** No system message the program can pick holds a brace. *)
Lemma system_msg_no_brace persona_key :
  no_brace (get PERSONAS persona_key DEFAULT_SYSTEM_MSG) = true.
Proof.
  destruct registry_no_brace as [HP HD].
  unfold get. destruct (lookup PERSONAS persona_key) as [v|] eqn:E;
    [|exact HD].
  apply lookup_In in E.
  rewrite forallb_forall in HP. exact (HP _ E).
Qed.

(** The prompt of [query_llm]: both templates parse, and formatting gives
    back the system message and the input text. *)
Lemma prompt_messages input_text persona_key :
  rbind (from_messages
           [ (system, get PERSONAS persona_key DEFAULT_SYSTEM_MSG);
             (human, u "{user_input}") ])
        (fun prompt =>
           format_messages prompt [ (u "user_input", input_text) ])
  = Ok [ SystemMessage (get PERSONAS persona_key DEFAULT_SYSTEM_MSG);
         HumanMessage input_text ].
Proof.
  cbn [from_messages].
  rewrite (parse_no_brace _ (system_msg_no_brace persona_key)).
  rewrite parse_user_input. cbn [rbind format_messages].
  rewrite format_literals, format_user_input. reflexivity.
Qed.

End Templates.

(** ** Traces *)

Section Traces.

Lemma run_events_app {A} (m : M A) s l :
  trace (snd (m s)) = trace s ++ l -> run_events m s = l.
Proof.
  unfold run_events. intros ->.
  rewrite skipn_app, skipn_all, Nat.sub_diag. reflexivity.
Qed.

Lemma requests_app t1 t2 : requests (t1 ++ t2) = requests t1 ++ requests t2.
Proof.
  induction t1 as [|e r IH]; simpl; [reflexivity|].
  destruct e; simpl; now rewrite ?IH.
Qed.

Lemma constructions_app t1 t2 :
  constructions (t1 ++ t2) = constructions t1 ++ constructions t2.
Proof.
  induction t1 as [|e r IH]; simpl; [reflexivity|].
  destruct e; simpl; now rewrite ?IH.
Qed.

Lemma handles_used_app t1 t2 :
  handles_used (t1 ++ t2) = handles_used t1 ++ handles_used t2.
Proof.
  induction t1 as [|e r IH]; simpl; [reflexivity|].
  destruct e; simpl; now rewrite ?IH.
Qed.

Lemma requests_construction k s : requests (construction k s) = [].
Proof. unfold construction. now destruct (llm_cache s). Qed.

Lemma handles_used_construction k s : handles_used (construction k s) = [].
Proof. unfold construction. now destruct (llm_cache s). Qed.

Lemma observe_page_handles : handles_used page_events = [].
Proof. reflexivity. Qed.

End Traces.

(** ** get_llm and query_llm *)

Section Query.

Variable i : run_input.
Variable OPENAI_API_KEY : option str.

Lemma get_llm_eq s :
  get_llm OPENAI_API_KEY s
  = (Ok (client OPENAI_API_KEY s),
     {| llm_cache := Some (client OPENAI_API_KEY s);
        trace := trace s ++ construction OPENAI_API_KEY s |}).
Proof.
  unfold get_llm, client, construction.
  destruct s as [[llm|] t]; simpl; [|reflexivity].
  now rewrite app_nil_r.
Qed.

(** What a call of [query_llm] does, for any text, label and state. *)
Lemma query_llm_eq input_text persona_key s :
  let llm := client OPENAI_API_KEY s in
  let messages :=
    [ SystemMessage (get PERSONAS persona_key DEFAULT_SYSTEM_MSG);
      HumanMessage input_text ] in
  query_llm i OPENAI_API_KEY input_text persona_key s
  = (of_reply (completion i llm messages),
     {| llm_cache := Some llm;
        trace := trace s ++ construction OPENAI_API_KEY s
                 ++ [llm_invoke llm messages] |}).
Proof.
  intros llm messages.
  pose proof (prompt_messages input_text persona_key) as P.
  unfold query_llm, bind, lift.
  destruct (from_messages _) as [prompt| |]; cbn [rbind] in P;
    try discriminate.
  rewrite get_llm_eq. rewrite P. unfold emit. cbn [llm_cache trace].
  rewrite <- app_assoc. reflexivity.
Qed.

End Query.

(** ** The submit handler *)

Section Handler.

Variable i : run_input.
Variable k : option str.
Variables user_text persona : str.

Lemma handler_idle s :
  submit_handler i k false user_text persona s = (Ok tt, s).
Proof. reflexivity. Qed.

Lemma handler_blank s :
  blank user_text = true ->
  submit_handler i k true user_text persona s
  = emit (st_warning WARNING_TEXT) s.
Proof.
  intros H. unfold submit_handler.
  now rewrite strip_truthy, H.
Qed.

(** A submission with text: the spinner, then [query_llm] on the text as
    it is, under the [try]. *)
Lemma handler_query s :
  blank user_text = false ->
  submit_handler i k true user_text persona s
  = (emit (st_spinner SPINNER_TEXT) ;;
     try_except
       (answer <- query_llm i k user_text persona ;;
        emit (st_markdown ANSWER_HEADING) ;;
        emit (st_write answer))
       (fun e => emit (st_error (ERROR_PREFIX ++ exn_str e)))) s.
Proof.
  intros H. unfold submit_handler.
  now rewrite strip_truthy, H.
Qed.

Lemma handler_reply s :
  blank user_text = false ->
  let llm := client k s in
  let messages :=
    [ SystemMessage (get PERSONAS persona DEFAULT_SYSTEM_MSG);
      HumanMessage user_text ] in
  submit_handler i k true user_text persona s
  = (Ok tt,
     {| llm_cache := Some llm;
        trace := trace s
          ++ [st_spinner SPINNER_TEXT] ++ construction k s
          ++ [llm_invoke llm messages]
          ++ match completion i llm messages with
             | Text answer => [st_markdown ANSWER_HEADING; st_write answer]
             | Fails e => [st_error (ERROR_PREFIX ++ exn_str e)]
             end |}).
Proof.
  intros H llm messages. rewrite (handler_query s H).
  unfold bind at 1. unfold emit at 1. cbn iota beta.
  unfold try_except, bind. rewrite query_llm_eq.
  change (client k _) with llm.
  change (construction k _) with (construction k s).
  cbn [trace llm_cache]. fold messages.
  destruct (completion i llm messages) as [answer|e]; cbn [of_reply];
    unfold emit; cbn [trace llm_cache];
    rewrite <- !app_assoc; reflexivity.
Qed.

End Handler.

(** ** The runs of the script, case by case *)

Section Runs.

Variable i : run_input.

Let KEY := resolve_OPENAI_API_KEY i.
Let text := text_area_value i.

Lemma guard_stops s :
  is_set KEY = false ->
  missing_key_guard KEY s
  = (Stop, with_events s [ st_set_page_config PAGE_TITLE;
                           st_error MISSING_KEY_MESSAGE ]).
Proof.
  intros H. unfold missing_key_guard, with_events. rewrite H.
  unfold bind, emit, st_stop. cbn [negb llm_cache trace].
  now rewrite <- app_assoc.
Qed.

Lemma guard_passes s :
  is_set KEY = true -> missing_key_guard KEY s = (Ok tt, s).
Proof. intros H. unfold missing_key_guard. now rewrite H. Qed.

(** The key is missing: the run stops after the error message. *)
Lemma app_stops s :
  is_set KEY = false ->
  app_py i s = (Stop, with_events s [ st_set_page_config PAGE_TITLE;
                                   st_error MISSING_KEY_MESSAGE ]).
Proof.
  intros H. unfold app_py. fold KEY. unfold bind at 1.
  now rewrite (guard_stops s H).
Qed.

Lemma app_main s : is_set KEY = true -> app_py i s = main_ui i KEY s.
Proof.
  intros H. unfold app_py. fold KEY. unfold bind at 1.
  now rewrite (guard_passes s H).
Qed.

Lemma main_ui_selected s persona :
  nth_error (keys PERSONAS) (radio_index i) = Some persona ->
  main_ui i KEY s
  = submit_handler i KEY (form_submitted i) text persona
      (with_events s page_events).
Proof.
  intros H. unfold main_ui, radio, bind, emit, ret, with_events.
  cbn [llm_cache trace]. rewrite H. cbn [llm_cache trace].
  rewrite <- !app_assoc. reflexivity.
Qed.

Lemma main_ui_index_error s :
  nth_error (keys PERSONAS) (radio_index i) = None ->
  main_ui i KEY s
  = (Raise (Exn (u "list index out of range")),
     with_events s (firstn 5 page_events)).
Proof.
  intros H. unfold main_ui, radio, bind, emit, ret, lift, with_events.
  cbn [llm_cache trace]. rewrite H. cbn [llm_cache trace].
  rewrite <- !app_assoc. reflexivity.
Qed.

End Runs.

(** ** The cache over the runs of a process *)

Section Cache.

(** A run either leaves the client alone, or fetches it once and sends
    one request through it. *)
Lemma app_effect i s :
  let KEY := resolve_OPENAI_API_KEY i in
  exists ev,
    trace (snd (app_py i s)) = trace s ++ ev
    /\ ((llm_cache (snd (app_py i s)) = llm_cache s
         /\ constructions ev = [] /\ handles_used ev = [])
        \/ (llm_cache (snd (app_py i s)) = Some (client KEY s)
            /\ constructions ev = constructions (construction KEY s)
            /\ handles_used ev = [client KEY s])).
Proof.
  intros KEY.
  destruct (is_set KEY) eqn:K.
  2:{ rewrite (app_stops i s K). eexists. split; [reflexivity|].
      left. repeat split. }
  rewrite (app_main i s K).
  destruct (nth_error (keys PERSONAS) (radio_index i)) as [persona|] eqn:R.
  2:{ rewrite (main_ui_index_error i s R). eexists.
      split; [reflexivity|]. left. repeat split. }
  rewrite (main_ui_selected i s persona R).
  destruct (form_submitted i).
  2:{ rewrite handler_idle. eexists. split; [reflexivity|].
      left. repeat split. }
  destruct (blank (text_area_value i)) eqn:B.
  - rewrite (handler_blank i _ _ persona _ B). unfold emit, with_events.
    cbn [snd trace llm_cache]. rewrite <- app_assoc.
    eexists. split; [reflexivity|]. left. repeat split.
  - rewrite (handler_reply i _ _ persona _ B). cbn [snd trace llm_cache].
    change (client _ (with_events s page_events)) with (client KEY s).
    change (construction _ (with_events s page_events))
      with (construction KEY s).
    unfold with_events. cbn [trace]. rewrite <- app_assoc.
    eexists. split; [reflexivity|]. right.
    split; [reflexivity|].
    rewrite !constructions_app, !handles_used_app.
    rewrite handles_used_construction.
    destruct (completion i _ _); cbn; rewrite ?app_nil_r; split; reflexivity.
Qed.

Lemma cache_consistent_app i s :
  cache_consistent s -> cache_consistent (snd (app_py i s)).
Proof.
  intros (HC & HU & HF).
  destruct (app_effect i s) as (ev & T & [(C & E1 & E2)|(C & E1 & E2)]);
    unfold cache_consistent; rewrite T, C;
    rewrite constructions_app, handles_used_app, E1, E2.
  - rewrite !app_nil_r. auto.
  - unfold construction, client in *.
    destruct (llm_cache s) as [llm|] eqn:L; cbn [constructions].
    + rewrite app_nil_r. split; [exact HC|]. split; [|exact HF].
      intros l [H| [<-|[]]]%in_app_or; [auto|reflexivity].
    + rewrite HC. cbn [List.app]. split; [reflexivity|]. split.
      * intros l [H| [<-|[]]]%in_app_or; [|reflexivity].
        apply HU in H. discriminate.
      * intros l [<-|[]]. repeat split.
Qed.

Lemma cache_consistent_session runs s :
  cache_consistent s -> cache_consistent (session runs s).
Proof.
  revert s. induction runs as [|i rest IH]; intros s H; cbn [session].
  - exact H.
  - apply IH. now apply cache_consistent_app.
Qed.

Lemma cache_consistent_initial : cache_consistent initial.
Proof. split; [reflexivity|split]; intros llm []. Qed.

End Cache.

(** ** The query function *)

Section QueryEvents.

Variables (i : run_input) (k : option str) (input_text label : str).
Variable s : state.

Lemma query_llm_events :
  run_events (query_llm i k input_text label) s
  = construction k s
    ++ [llm_invoke (client k s)
          [ SystemMessage (get PERSONAS label DEFAULT_SYSTEM_MSG);
            HumanMessage input_text ]].
Proof. apply run_events_app. now rewrite query_llm_eq. Qed.

Lemma query_llm_requests :
  requests (run_events (query_llm i k input_text label) s)
  = [[ SystemMessage (get PERSONAS label DEFAULT_SYSTEM_MSG);
       HumanMessage input_text ]].
Proof.
  rewrite query_llm_events, requests_app, requests_construction.
  reflexivity.
Qed.

Lemma query_llm_result :
  fst (query_llm i k input_text label s)
  = of_reply (completion i (client k s)
                [ SystemMessage (get PERSONAS label DEFAULT_SYSTEM_MSG);
                  HumanMessage input_text ]).
Proof. now rewrite query_llm_eq. Qed.

End QueryEvents.

Lemma get_data_science :
  get PERSONAS (u "データサイエンス") DEFAULT_SYSTEM_MSG
  = u "あなたはビジネス課題を分析で解くデータサイエンス専門家です。目的定義→データ要件→前処理→特徴量→モデル選定→評価指標→運用化の順で、現場で再現可能なステップを具体的に提案してください。".
Proof. vm_compute. reflexivity. Qed.

Lemma get_unknown_value :
  get PERSONAS (u "unknown-value") DEFAULT_SYSTEM_MSG
  = u "あなたは有能なアシスタントです。簡潔かつ具体的に答えてください。".
Proof. vm_compute. reflexivity. Qed.

(** C1.  For every label that is a key of [PERSONAS], the request
    [query_llm] sends has that label's instruction text as its system
    message, and nothing else; for the label of the data-science persona and
    the text of the scenario, the system message is the data-science
    instruction as the source spells it and the user message is the text.
    The key is set, as it is wherever the script calls [query_llm]. *)
Theorem C1_registered_label_gives_its_instruction :
  (forall i k input_text label s,
      is_set k = true ->
      In label (keys PERSONAS) ->
      exists instruction,
        lookup PERSONAS label = Some instruction
        /\ requests (run_events (query_llm i k input_text label) s)
           = [[SystemMessage instruction; HumanMessage input_text]])
  /\ (forall i k s,
         is_set k = true ->
         requests (run_events
                     (query_llm i k (u "新商品の需要予測をしたい")
                        (u "データサイエンス")) s)
         = [[ SystemMessage
                (u "あなたはビジネス課題を分析で解くデータサイエンス専門家です。目的定義→データ要件→前処理→特徴量→モデル選定→評価指標→運用化の順で、現場で再現可能なステップを具体的に提案してください。");
              HumanMessage (u "新商品の需要予測をしたい") ]]).
Proof.
  split.
  - intros i k input_text label s _ H.
    destruct (lookup_key PERSONAS label H) as [instruction L].
    exists instruction. split; [exact L|].
    rewrite query_llm_requests. now rewrite (get_found _ _ _ _ L).
  - intros i k s _. rewrite query_llm_requests.
    now rewrite get_data_science.
Qed.

Lemma C1_witness :
  (exists instruction,
      lookup PERSONAS (u "CX/サービスデザイン") = Some instruction
      /\ requests (run_events
                     (query_llm padded_submission (Some (u "sk-test"))
                        (u "hello") (u "CX/サービスデザイン")) initial)
         = [[SystemMessage instruction; HumanMessage (u "hello")]])
  /\ requests (run_events
                 (query_llm padded_submission (Some (u "sk-test"))
                    (u "新商品の需要予測をしたい")
                    (u "データサイエンス")) initial)
     = [[ SystemMessage
            (u "あなたはビジネス課題を分析で解くデータサイエンス専門家です。目的定義→データ要件→前処理→特徴量→モデル選定→評価指標→運用化の順で、現場で再現可能なステップを具体的に提案してください。");
          HumanMessage (u "新商品の需要予測をしたい") ]].
Proof.
  split.
  - apply (proj1 C1_registered_label_gives_its_instruction).
    + vm_compute. reflexivity.
    + vm_compute. right. right. left. reflexivity.
  - apply (proj2 C1_registered_label_gives_its_instruction).
    vm_compute. reflexivity.
Defined.

(** C2.  For every label that is no key of [PERSONAS] the lookup does not
    raise: the system message is the fixed default instruction, the call
    adds no event but the construction of the client and the request, and
    its outcome is the model's answer to that request.  The label
    "unknown-value" is such a label.  The key is set, as it is wherever the
    script calls [query_llm]. *)
Theorem C2_unknown_label_falls_back :
  (forall i k input_text label s,
      is_set k = true ->
      ~ In label (keys PERSONAS) ->
      let messages :=
        [SystemMessage DEFAULT_SYSTEM_MSG; HumanMessage input_text] in
      get PERSONAS label DEFAULT_SYSTEM_MSG = DEFAULT_SYSTEM_MSG
      /\ run_events (query_llm i k input_text label) s
         = construction k s ++ [llm_invoke (client k s) messages]
      /\ fst (query_llm i k input_text label s)
         = of_reply (completion i (client k s) messages))
  /\ ~ In (u "unknown-value") (keys PERSONAS)
  /\ (forall i k s,
         is_set k = true ->
         requests (run_events
                     (query_llm i k (u "test") (u "unknown-value")) s)
         = [[ SystemMessage
                (u "あなたは有能なアシスタントです。簡潔かつ具体的に答えてください。");
              HumanMessage (u "test") ]]).
Proof.
  split; [|split].
  - intros i k input_text label s _ H messages.
    pose proof (get_missing PERSONAS label DEFAULT_SYSTEM_MSG H) as G.
    split; [exact G|].
    rewrite query_llm_events, query_llm_result, G. split; reflexivity.
  - vm_compute. intros [H|[H|[H|[]]]]; discriminate H.
  - intros i k s _. rewrite query_llm_requests.
    now rewrite get_unknown_value.
Qed.

Lemma C2_witness :
  (get PERSONAS (u "法務") DEFAULT_SYSTEM_MSG = DEFAULT_SYSTEM_MSG
   /\ run_events
        (query_llm padded_submission (Some (u "sk-test")) (u "test")
           (u "法務")) initial
      = construction (Some (u "sk-test")) initial
        ++ [llm_invoke (client (Some (u "sk-test")) initial)
              [SystemMessage DEFAULT_SYSTEM_MSG; HumanMessage (u "test")]]
   /\ fst (query_llm padded_submission (Some (u "sk-test")) (u "test")
             (u "法務") initial)
      = of_reply
          (completion padded_submission (client (Some (u "sk-test")) initial)
             [SystemMessage DEFAULT_SYSTEM_MSG; HumanMessage (u "test")]))
  /\ requests (run_events
                 (query_llm padded_submission (Some (u "sk-test"))
                    (u "test") (u "unknown-value")) initial)
     = [[ SystemMessage
            (u "あなたは有能なアシスタントです。簡潔かつ具体的に答えてください。");
          HumanMessage (u "test") ]].
Proof.
  split.
  - apply (proj1 C2_unknown_label_falls_back).
    + vm_compute. reflexivity.
    + vm_compute. intros [H|[H|[H|[]]]]; discriminate H.
  - apply (proj2 (proj2 C2_unknown_label_falls_back)).
    vm_compute. reflexivity.
Defined.

(** C3.  For every non-empty input text, the user message of the request
    [query_llm] sends is the input text, character for character: braces,
    markup and white space in it are passed on as they are.  The key is
    set, as it is wherever the script calls [query_llm]. *)
Theorem C3_user_turn_is_input_text :
  forall i k input_text label s,
    is_set k = true ->
    input_text <> [] ->
    exists system_msg,
      requests (run_events (query_llm i k input_text label) s)
      = [[SystemMessage system_msg; HumanMessage input_text]].
Proof.
  intros i k input_text label s _ _.
  eexists. apply query_llm_requests.
Qed.

Lemma C3_witness :
  exists system_msg,
    requests (run_events
                (query_llm padded_submission (Some (u "sk-test"))
                   template_like_text (u "データサイエンス")) initial)
    = [[SystemMessage system_msg; HumanMessage template_like_text]].
Proof.
  apply C3_user_turn_is_input_text.
  - vm_compute. reflexivity.
  - vm_compute. discriminate.
Defined.

(** ** Whole runs *)

Section WholeRuns.

Variable i : run_input.
Variable s : state.

Let KEY := resolve_OPENAI_API_KEY i.
Let text := text_area_value i.

Hypothesis key_set : is_set KEY = true.

Lemma app_index_error :
  nth_error (keys PERSONAS) (radio_index i) = None ->
  app_py i s = (Raise (Exn (u "list index out of range")),
             with_events s (firstn 5 page_events)).
Proof.
  intros R. rewrite (app_main i s key_set).
  apply (main_ui_index_error i s R).
Qed.

Variable persona : str.
Hypothesis selected :
  nth_error (keys PERSONAS) (radio_index i) = Some persona.

Lemma app_idle :
  form_submitted i = false -> app_py i s = (Ok tt, with_events s page_events).
Proof.
  intros F. rewrite (app_main i s key_set).
  rewrite (main_ui_selected i s persona selected), F.
  apply handler_idle.
Qed.

Hypothesis submitted : form_submitted i = true.

Lemma app_blank :
  blank text = true ->
  app_py i s
  = (Ok tt, with_events s (page_events ++ [st_warning WARNING_TEXT])).
Proof.
  intros B. rewrite (app_main i s key_set).
  rewrite (main_ui_selected i s persona selected), submitted.
  rewrite (handler_blank i _ _ persona _ B).
  unfold emit, with_events. cbn [trace llm_cache].
  now rewrite <- app_assoc.
Qed.

Lemma app_query :
  blank text = false ->
  let llm := client KEY s in
  let messages :=
    [ SystemMessage (get PERSONAS persona DEFAULT_SYSTEM_MSG);
      HumanMessage text ] in
  app_py i s
  = (Ok tt,
     {| llm_cache := Some llm;
        trace := trace s
          ++ page_events
          ++ [st_spinner SPINNER_TEXT] ++ construction KEY s
          ++ [llm_invoke llm messages]
          ++ match completion i llm messages with
             | Text answer => [st_markdown ANSWER_HEADING; st_write answer]
             | Fails e => [st_error (ERROR_PREFIX ++ exn_str e)]
             end |}).
Proof.
  intros B llm messages. rewrite (app_main i s key_set).
  rewrite (main_ui_selected i s persona selected), submitted.
  rewrite (handler_reply i _ _ persona _ B).
  change (client _ (with_events s page_events)) with llm.
  change (construction _ (with_events s page_events))
    with (construction KEY s).
  unfold with_events. cbn [trace]. fold messages.
  now rewrite <- app_assoc.
Qed.

End WholeRuns.

Section Requests.

Lemma In_llm_invoke llm messages t :
  In (llm_invoke llm messages) t ->
  In llm (handles_used t) /\ In messages (requests t).
Proof.
  induction t as [|e r IH]; [intros []|].
  intros [->|H].
  - split; now left.
  - destruct (IH H) as [H1 H2]. destruct e; cbn; auto.
Qed.

(** The requests of a run: one, when the key is there, an option is
    selected, the form was submitted and the text is not blank; none
    otherwise. *)
Lemma app_requests i s :
  requests (run_events (app_py i) s)
  = if is_set (resolve_OPENAI_API_KEY i) && form_submitted i
       && negb (blank (text_area_value i))
    then match nth_error (keys PERSONAS) (radio_index i) with
         | Some persona =>
             [[ SystemMessage (get PERSONAS persona DEFAULT_SYSTEM_MSG);
                HumanMessage (text_area_value i) ]]
         | None => []
         end
    else [].
Proof.
  destruct (is_set (resolve_OPENAI_API_KEY i)) eqn:K; cbn [andb].
  2:{ rewrite (run_events_app _ _ _ (f_equal trace
                 (f_equal snd (app_stops i s K)))). reflexivity. }
  destruct (nth_error (keys PERSONAS) (radio_index i)) as [persona|] eqn:R.
  2:{ rewrite (run_events_app _ _ _ (f_equal trace
                 (f_equal snd (app_index_error i s K R)))).
      now destruct (_ && _). }
  destruct (form_submitted i) eqn:F; cbn [andb].
  2:{ rewrite (run_events_app _ _ _ (f_equal trace
                 (f_equal snd (app_idle i s K persona R F)))).
      reflexivity. }
  destruct (blank (text_area_value i)) eqn:B; cbn [negb].
  - rewrite (run_events_app _ _ _ (f_equal trace
               (f_equal snd (app_blank i s K persona R F B)))).
    reflexivity.
  - rewrite (run_events_app _ _ _ (f_equal trace
               (f_equal snd (app_query i s K persona R F B)))).
    rewrite !requests_app, requests_construction.
    now destruct (completion i _ _).
Qed.

End Requests.

Ltac run_trace H :=
  rewrite (run_events_app _ _ _ (f_equal trace (f_equal snd H))).

(** C4.  A run whose text is empty or white space only sends no request and
    constructs no client, and leaves the cache as it was; when it is a
    submission, it ends normally with the page followed by the warning.
    Every call of [query_llm] sends a request ([query_llm_requests]), so no
    such call is made. *)
Theorem C4_blank_input_makes_no_call :
  forall i s,
    blank (text_area_value i) = true ->
    requests (run_events (app_py i) s) = []
    /\ constructions (run_events (app_py i) s) = []
    /\ llm_cache (snd (app_py i s)) = llm_cache s
    /\ (forall persona,
           is_set (resolve_OPENAI_API_KEY i) = true ->
           nth_error (keys PERSONAS) (radio_index i) = Some persona ->
           form_submitted i = true ->
           app_py i s
           = (Ok tt,
              with_events s (page_events ++ [st_warning WARNING_TEXT]))).
Proof.
  intros i s B. split.
  { rewrite app_requests, B. cbn [negb]. now rewrite andb_false_r. }
  assert (constructions (run_events (app_py i) s) = []
          /\ llm_cache (snd (app_py i s)) = llm_cache s) as [C L].
  { destruct (is_set (resolve_OPENAI_API_KEY i)) eqn:K.
    2:{ run_trace (app_stops i s K). rewrite (app_stops i s K).
        split; reflexivity. }
    destruct (nth_error (keys PERSONAS) (radio_index i)) as [persona|] eqn:R.
    2:{ run_trace (app_index_error i s K R).
        rewrite (app_index_error i s K R). split; reflexivity. }
    destruct (form_submitted i) eqn:F.
    - run_trace (app_blank i s K persona R F B).
      rewrite (app_blank i s K persona R F B). split; reflexivity.
    - run_trace (app_idle i s K persona R F).
      rewrite (app_idle i s K persona R F). split; reflexivity. }
  split; [exact C|]. split; [exact L|].
  intros persona K R F. exact (app_blank i s K persona R F B).
Qed.

Lemma C4_witness :
  requests (run_events (app_py blank_submission) initial) = []
  /\ constructions (run_events (app_py blank_submission) initial) = []
  /\ llm_cache (snd (app_py blank_submission initial)) = llm_cache initial
  /\ (forall persona,
         is_set (resolve_OPENAI_API_KEY blank_submission) = true ->
         nth_error (keys PERSONAS) (radio_index blank_submission)
         = Some persona ->
         form_submitted blank_submission = true ->
         app_py blank_submission initial
         = (Ok tt,
            with_events initial (page_events ++ [st_warning WARNING_TEXT]))).
Proof.
  apply C4_blank_input_makes_no_call.
  vm_compute. reflexivity.
Defined.

(** C5.  Whenever a run sends a request and the client raises an error on
    it, the run still ends normally: the exception is caught.  The run shows
    the page and the spinner, fetches the client, sends that request and no
    other (no retry), and the last thing it shows, right after the request,
    is the error message made of the fixed prefix and the text of the
    exception; no answer is written. *)
Theorem C5_client_error_is_caught_and_shown :
  forall i s llm messages e,
    In (llm_invoke llm messages) (run_events (app_py i) s) ->
    completion i llm messages = Fails e ->
    fst (app_py i s) = Ok tt
    /\ run_events (app_py i) s
       = page_events
         ++ [st_spinner SPINNER_TEXT]
         ++ construction (resolve_OPENAI_API_KEY i) s
         ++ [ llm_invoke llm messages;
              st_error (ERROR_PREFIX ++ exn_str e) ]
    /\ requests (run_events (app_py i) s) = [messages].
Proof.
  intros i s llm messages e HIn HF.
  pose proof (In_llm_invoke _ _ _ HIn) as [HU HR].
  rewrite app_requests in HR.
  destruct (is_set (resolve_OPENAI_API_KEY i)) eqn:K; [|destruct HR].
  destruct (form_submitted i) eqn:F; [|destruct HR].
  destruct (blank (text_area_value i)) eqn:B; [destruct HR|].
  cbn [andb negb] in HR.
  destruct (nth_error (keys PERSONAS) (radio_index i)) as [persona|] eqn:R;
    [|destruct HR].
  destruct HR as [<-|[]].
  pose proof (app_query i s K persona R F B) as Q. cbn zeta in Q.
  revert HU. run_trace Q.
  rewrite !handles_used_app, handles_used_construction, observe_page_handles.
  cbn [handles_used List.app]. intros HU.
  assert (client (resolve_OPENAI_API_KEY i) s = llm) as E.
  { destruct (completion i (client _ _) _);
      cbn [handles_used List.app In] in HU;
      destruct HU as [HU|[]]; exact HU. }
  rewrite E in *. rewrite HF in *. rewrite Q. split; [reflexivity|].
  split; [reflexivity|].
  rewrite requests_app. cbn [requests List.app].
  rewrite requests_app, requests_construction. reflexivity.
Qed.

Lemma C5_witness :
  fst (app_py failing_submission initial) = Ok tt
  /\ run_events (app_py failing_submission) initial
     = page_events
       ++ [st_spinner SPINNER_TEXT]
       ++ construction (resolve_OPENAI_API_KEY failing_submission) initial
       ++ [ llm_invoke (client (Some (u "sk-test")) initial)
              [ SystemMessage
                  (get PERSONAS (u "データサイエンス") DEFAULT_SYSTEM_MSG);
                HumanMessage (u "hello") ];
            st_error (ERROR_PREFIX ++ exn_str connection_error) ]
  /\ requests (run_events (app_py failing_submission) initial)
     = [[ SystemMessage
            (get PERSONAS (u "データサイエンス") DEFAULT_SYSTEM_MSG);
          HumanMessage (u "hello") ]].
Proof.
  apply C5_client_error_is_caught_and_shown.
  - vm_compute. do 10 right. left. reflexivity.
  - vm_compute. reflexivity.
Defined.

(** C6.  The key is the environment variable when that is set, and the
    secret otherwise; the secrets are not consulted when the environment
    has the key.  When neither gives a key, the run shows the error message
    and stops: the page configuration and the message are all it adds to the
    trace, none of the widgets of the page is drawn, and the client is
    neither constructed nor used. *)
Theorem C6_api_key_resolution :
  forall i s,
    (is_set (getenv_OPENAI_API_KEY i) = true ->
     resolve_OPENAI_API_KEY i = getenv_OPENAI_API_KEY i)
    /\ (is_set (getenv_OPENAI_API_KEY i) = false ->
        resolve_OPENAI_API_KEY i = secrets_OPENAI_API_KEY i)
    /\ (is_set (getenv_OPENAI_API_KEY i) = false ->
        is_set (secrets_OPENAI_API_KEY i) = false ->
        app_py i s
        = (Stop, with_events s [ st_set_page_config PAGE_TITLE;
                                 st_error MISSING_KEY_MESSAGE ])
        /\ (forall e, In e (run_events (app_py i) s) ->
                      ~ In e (tl page_events))).
Proof.
  intros i s. unfold resolve_OPENAI_API_KEY.
  split; [|split].
  - now intros ->.
  - now intros ->.
  - intros E S.
    assert (is_set (resolve_OPENAI_API_KEY i) = false) as K
        by (unfold resolve_OPENAI_API_KEY; now rewrite E).
    split; [exact (app_stops i s K)|].
    run_trace (app_stops i s K).
    intros e [<-|[<-|[]]] H; cbn in H;
      repeat (destruct H as [H|H]; [discriminate H|]); exact H.
Qed.

Lemma C6_witness :
  app_py run_without_key initial
  = (Stop, with_events initial [ st_set_page_config PAGE_TITLE;
                                 st_error MISSING_KEY_MESSAGE ])
  /\ (forall e, In e (run_events (app_py run_without_key) initial) ->
                ~ In e (tl page_events)).
Proof.
  apply (proj2 (proj2 (C6_api_key_resolution run_without_key initial)));
    vm_compute; reflexivity.
Defined.

(** C7, as the claim states its last part: every submission sends exactly
    one request.  A submission with an empty text area is a submission, it
    ends normally, and it sends none. *)
Lemma C7_counterexample :
  form_submitted empty_submission = true
  /\ is_set (resolve_OPENAI_API_KEY empty_submission) = true
  /\ fst (app_py empty_submission initial) = Ok tt
  /\ requests (run_events (app_py empty_submission) initial) = []
  /\ List.length (requests (run_events (app_py empty_submission) initial))
     <> 1%nat.
Proof. vm_compute. repeat split; discriminate. Qed.

(** C7, amended.  Over any sequence of runs of a process, the client is
    constructed at most once, with the model, temperature and timeout of the
    source; every request goes through that one handle, which is the one
    the cache holds.  A submission whose text is not blank sends exactly one
    request, of two messages: the system message first, the user message
    second; a submission whose text is blank sends none. *)
Theorem C7_one_client_and_one_request_per_query :
  forall runs,
    (List.length (constructions (trace (session runs initial))) <= 1)%nat
    /\ (forall llm,
           In llm (constructions (trace (session runs initial))) ->
           model llm = u "gpt-4o-mini"
           /\ temperature llm = 3 # 10
           /\ timeout llm = 60%Z)
    /\ (forall llm,
           In llm (handles_used (trace (session runs initial))) ->
           llm_cache (session runs initial) = Some llm
           /\ constructions (trace (session runs initial)) = [llm])
    /\ (forall i s persona,
           is_set (resolve_OPENAI_API_KEY i) = true ->
           nth_error (keys PERSONAS) (radio_index i) = Some persona ->
           form_submitted i = true ->
           requests (run_events (app_py i) s)
           = if blank (text_area_value i) then []
             else [[ SystemMessage (get PERSONAS persona DEFAULT_SYSTEM_MSG);
                     HumanMessage (text_area_value i) ]]).
Proof.
  intros runs.
  destruct (cache_consistent_session runs initial cache_consistent_initial)
    as (HC & HU & HF).
  split; [|split; [|split]].
  - rewrite HC. destruct (llm_cache _); cbn; lia.
  - exact HF.
  - intros llm H. pose proof (HU llm H) as E.
    split; [exact E|]. now rewrite HC, E.
  - intros i s persona K R F. rewrite app_requests, K, R, F.
    now destruct (blank _).
Qed.

Lemma C7_witness :
  (List.length
     (constructions
        (trace (session [padded_submission; blank_submission;
                         failing_submission] initial))) <= 1)%nat
  /\ handles_used
       (trace (session [padded_submission; blank_submission;
                        failing_submission] initial))
     = [ client (Some (u "sk-test")) initial;
         client (Some (u "sk-test")) initial ]
  /\ llm_cache (session [padded_submission; blank_submission;
                         failing_submission] initial)
     = Some (client (Some (u "sk-test")) initial)
  /\ requests (run_events (app_py padded_submission) initial)
     = [[ SystemMessage (get PERSONAS (u "データサイエンス") DEFAULT_SYSTEM_MSG);
          HumanMessage padded_text ]].
Proof.
  destruct (C7_one_client_and_one_request_per_query
              [padded_submission; blank_submission; failing_submission])
    as (A & _ & C & D).
  split; [exact A|]. split; [vm_compute; reflexivity|].
  split.
  - apply C. vm_compute. left. reflexivity.
  - apply (D padded_submission initial (u "データサイエンス"));
      vm_compute; reflexivity.
Defined.

(** C8.  [query_llm] checks nothing about its text: for every text, the
    empty one and blank ones included, a call with the key set fetches the
    client, sends the request with the resolved system message and the text
    as user message, and returns the model's answer.  The guard against
    blank text is in the submit handler, which for such a text only shows
    the warning. *)
Theorem C8_query_llm_does_not_validate :
  forall i k label s,
    is_set k = true ->
    (forall input_text,
        run_events (query_llm i k input_text label) s
        = construction k s
          ++ [llm_invoke (client k s)
                [ SystemMessage (get PERSONAS label DEFAULT_SYSTEM_MSG);
                  HumanMessage input_text ]]
        /\ fst (query_llm i k input_text label s)
           = of_reply
               (completion i (client k s)
                  [ SystemMessage (get PERSONAS label DEFAULT_SYSTEM_MSG);
                    HumanMessage input_text ]))
    /\ requests (run_events (query_llm i k [] label) s)
       = [[ SystemMessage (get PERSONAS label DEFAULT_SYSTEM_MSG);
            HumanMessage [] ]]
    /\ (forall input_text,
           blank input_text = true ->
           requests (run_events (query_llm i k input_text label) s)
           = [[ SystemMessage (get PERSONAS label DEFAULT_SYSTEM_MSG);
                HumanMessage input_text ]]
           /\ submit_handler i k true input_text label s
              = emit (st_warning WARNING_TEXT) s).
Proof.
  intros i k label s _. split; [|split].
  - intros input_text. split.
    + apply query_llm_events.
    + apply query_llm_result.
  - apply query_llm_requests.
  - intros input_text B. split.
    + apply query_llm_requests.
    + now apply handler_blank.
Qed.

Lemma C8_witness :
  requests (run_events
              (query_llm blank_submission (Some (u "sk-test")) []
                 (u "データサイエンス")) initial)
  = [[ SystemMessage (get PERSONAS (u "データサイエンス") DEFAULT_SYSTEM_MSG);
       HumanMessage [] ]]
  /\ requests (run_events
                 (query_llm blank_submission (Some (u "sk-test")) blank_text
                    (u "データサイエンス")) initial)
     = [[ SystemMessage
            (get PERSONAS (u "データサイエンス") DEFAULT_SYSTEM_MSG);
          HumanMessage blank_text ]]
  /\ submit_handler blank_submission (Some (u "sk-test")) true blank_text
       (u "データサイエンス") initial
     = emit (st_warning WARNING_TEXT) initial.
Proof.
  assert (is_set (Some (u "sk-test")) = true) as K
      by (vm_compute; reflexivity).
  destruct (C8_query_llm_does_not_validate blank_submission
              (Some (u "sk-test")) (u "データサイエンス") initial K)
    as (_ & E & B).
  split; [exact E|].
  apply B. vm_compute. reflexivity.
Defined.

Lemma default_not_registered :
  forallb (fun kv => negb (str_eqb (snd kv) DEFAULT_SYSTEM_MSG)) PERSONAS
  = true.
Proof. vm_compute. reflexivity. Qed.

Lemma registered_not_default label instruction :
  lookup PERSONAS label = Some instruction ->
  instruction <> DEFAULT_SYSTEM_MSG.
Proof.
  intros L E. apply lookup_In in L.
  pose proof default_not_registered as H. rewrite forallb_forall in H.
  specialize (H _ L). cbn [snd] in H. rewrite E, str_eqb_refl in H.
  discriminate.
Qed.

(** C9.  The options of the radio are the keys of [PERSONAS], in their
    order: every option the radio can return is a key, whose lookup gives
    its instruction, and every key can be selected.  So every request a run
    of the script sends has the instruction of a registered label as its
    system message, never the default of the fallback. *)
Theorem C9_radio_options_are_registry_keys :
  (forall i s label options,
      In (st_radio label options) (run_events (app_py i) s) ->
      options = keys PERSONAS)
  /\ (forall n s label,
         fst (radio RADIO_LABEL (keys PERSONAS) n s) = Ok label ->
         In label (keys PERSONAS)
         /\ exists instruction,
             lookup PERSONAS label = Some instruction
             /\ get PERSONAS label DEFAULT_SYSTEM_MSG = instruction)
  /\ (forall label,
         In label (keys PERSONAS) ->
         exists n, forall s,
             fst (radio RADIO_LABEL (keys PERSONAS) n s) = Ok label)
  /\ (forall i s messages,
         In messages (requests (run_events (app_py i) s)) ->
         exists label instruction,
           In label (keys PERSONAS)
           /\ lookup PERSONAS label = Some instruction
           /\ instruction <> DEFAULT_SYSTEM_MSG
           /\ messages = [ SystemMessage instruction;
                           HumanMessage (text_area_value i) ]).
Proof.
  split; [|split; [|split]].
  - intros i s label options.
    destruct (is_set (resolve_OPENAI_API_KEY i)) eqn:K.
    2:{ run_trace (app_stops i s K).
        intros [H|[H|[]]]; discriminate H. }
    assert (In (st_radio label options) page_events ->
            options = keys PERSONAS) as P.
    { intros H. unfold page_events in H. cbn [In] in H.
      repeat (destruct H as [H|H]; try discriminate H).
      - symmetry.
        exact (f_equal (fun e => match e with
                                 | st_radio _ o => o
                                 | _ => []
                                 end) H).
      - destruct H. }
    destruct (nth_error (keys PERSONAS) (radio_index i)) as [persona|] eqn:R.
    2:{ run_trace (app_index_error i s K R). intros H. apply P.
        change page_events
          with (firstn 5 page_events ++ skipn 5 page_events).
        apply in_or_app. now left. }
    destruct (form_submitted i) eqn:F.
    2:{ run_trace (app_idle i s K persona R F). exact P. }
    destruct (blank (text_area_value i)) eqn:B.
    + run_trace (app_blank i s K persona R F B).
      intros [H|[H|[]]]%in_app_or; [auto|discriminate H].
    + pose proof (app_query i s K persona R F B) as Q. cbn zeta in Q.
      run_trace Q. unfold construction.
      intros [H|H]%in_app_or; [auto|]. exfalso.
      destruct (llm_cache s), (completion i _ _); cbn [List.app In] in H;
        repeat (destruct H as [H|H]; try discriminate H); exact H.
  - intros n s label. unfold radio, bind, emit, ret, lift.
    destruct (nth_error (keys PERSONAS) n) as [o|] eqn:R;
      cbn [fst]; [|discriminate].
    intros [= ->]. pose proof (nth_error_In _ _ R) as H.
    split; [exact H|].
    destruct (lookup_key PERSONAS label H) as [instruction L].
    exists instruction. split; [exact L|]. now apply get_found.
  - intros label H. destruct (In_nth_error _ _ H) as [n R].
    exists n. intros s. unfold radio, bind, emit, ret. now rewrite R.
  - intros i s messages. rewrite app_requests.
    destruct (_ && _); [|intros []].
    destruct (nth_error (keys PERSONAS) (radio_index i)) as [persona|] eqn:R;
      [|intros []].
    intros [<-|[]]. pose proof (nth_error_In _ _ R) as H.
    destruct (lookup_key PERSONAS persona H) as [instruction L].
    exists persona, instruction. rewrite (get_found _ _ _ _ L).
    repeat split; auto. now apply (registered_not_default persona).
Qed.

Lemma C9_witness :
  In (u "データサイエンス") (keys PERSONAS)
  /\ exists instruction,
      lookup PERSONAS (u "データサイエンス") = Some instruction
      /\ get PERSONAS (u "データサイエンス") DEFAULT_SYSTEM_MSG = instruction.
Proof.
  apply (proj1 (proj2 C9_radio_options_are_registry_keys) 1%nat initial).
  vm_compute. reflexivity.
Defined.

(** C10.  The stripped text is used for the emptiness test only.  In every
    submission whose text is not blank, the handler runs on the content of
    the text area, calls [query_llm] with that very text, and the user
    message of the one request sent is that text, with the white space and
    line breaks around it. *)
Theorem C10_text_is_forwarded_unstripped :
  forall i s persona,
    is_set (resolve_OPENAI_API_KEY i) = true ->
    nth_error (keys PERSONAS) (radio_index i) = Some persona ->
    form_submitted i = true ->
    blank (text_area_value i) = false ->
    app_py i s
    = submit_handler i (resolve_OPENAI_API_KEY i) true (text_area_value i)
        persona (with_events s page_events)
    /\ (forall s',
           submit_handler i (resolve_OPENAI_API_KEY i) true
             (text_area_value i) persona s'
           = (emit (st_spinner SPINNER_TEXT) ;;
              try_except
                (answer <- query_llm i (resolve_OPENAI_API_KEY i)
                             (text_area_value i) persona ;;
                 emit (st_markdown ANSWER_HEADING) ;;
                 emit (st_write answer))
                (fun e => emit (st_error (ERROR_PREFIX ++ exn_str e)))) s')
    /\ requests (run_events (app_py i) s)
       = [[ SystemMessage (get PERSONAS persona DEFAULT_SYSTEM_MSG);
            HumanMessage (text_area_value i) ]].
Proof.
  intros i s persona K R F B. split; [|split].
  - rewrite (app_main i s K), (main_ui_selected i s persona R), F.
    reflexivity.
  - intros s'. now apply handler_query.
  - now rewrite app_requests, K, R, F, B.
Qed.

Lemma C10_witness :
  strip padded_text <> padded_text
  /\ requests (run_events (app_py padded_submission) initial)
     = [[ SystemMessage (get PERSONAS (u "データサイエンス") DEFAULT_SYSTEM_MSG);
          HumanMessage padded_text ]].
Proof.
  split; [vm_compute; discriminate|].
  apply (C10_text_is_forwarded_unstripped padded_submission initial
           (u "データサイエンス"));
    vm_compute; reflexivity.
Defined.


(** ** Further properties of the script *)

Section MoreRuns.

Lemma app_trace i s :
  trace (snd (app_py i s)) = trace s ++ run_events (app_py i) s.
Proof.
  destruct (app_effect i s) as (ev & T & _).
  now rewrite (run_events_app _ _ _ T).
Qed.

Lemma client_cached k s llm : llm_cache s = Some llm -> client k s = llm.
Proof. unfold client. now intros ->. Qed.

Lemma construction_cached k s llm :
  llm_cache s = Some llm -> construction k s = [].
Proof. unfold construction. now intros ->. Qed.

(** With the client in the cache, a run constructs nothing, sends what it
    sends through the cached handle and leaves it in the cache. *)
Lemma app_cached i s llm :
  llm_cache s = Some llm ->
  llm_cache (snd (app_py i s)) = Some llm
  /\ constructions (run_events (app_py i) s) = []
  /\ (forall l, In l (handles_used (run_events (app_py i) s)) -> l = llm).
Proof.
  intros L.
  destruct (app_effect i s) as (ev & T & [(C & E1 & E2)|(C & E1 & E2)]);
    rewrite (run_events_app _ _ _ T), C, E1, E2.
  - rewrite L. repeat split. intros l [].
  - rewrite (client_cached _ s llm L), (construction_cached _ s llm L).
    repeat split. now intros l [<-|[]].
Qed.

End MoreRuns.

(** X2.  Once the cache holds a client, no run of the process builds
    another one, whatever key the later runs resolve: the cache keeps that
    handle, no construction is added to the trace, and every request that is
    added goes through it. *)
Theorem X2_cached_client_is_never_rebuilt :
  forall runs s llm,
    llm_cache s = Some llm ->
    llm_cache (session runs s) = Some llm
    /\ exists ev,
        trace (session runs s) = trace s ++ ev
        /\ constructions ev = []
        /\ (forall l, In l (handles_used ev) -> l = llm).
Proof.
  induction runs as [|i rest IH]; intros s llm L; cbn [session].
  - split; [exact L|]. exists []. rewrite app_nil_r.
    repeat split. intros l [].
  - destruct (app_cached i s llm L) as (L1 & C1 & U1).
    destruct (IH _ llm L1) as (L2 & ev & T & C2 & U2).
    split; [exact L2|].
    exists (run_events (app_py i) s ++ ev).
    rewrite T, app_trace, <- app_assoc. split; [reflexivity|].
    rewrite constructions_app, handles_used_app, C1, C2.
    split; [reflexivity|].
    intros l [H|H]%in_app_or; auto.
Qed.

Lemma X2_witness :
  llm_cache (session [other_key_submission; secret_key_submission]
               (snd (app_py padded_submission initial)))
  = Some (client (Some (u "sk-test")) initial)
  /\ exists ev,
      trace (session [other_key_submission; secret_key_submission]
               (snd (app_py padded_submission initial)))
      = trace (snd (app_py padded_submission initial)) ++ ev
      /\ constructions ev = []
      /\ (forall l, In l (handles_used ev) ->
                    l = client (Some (u "sk-test")) initial).
Proof.
  apply X2_cached_client_is_never_rebuilt.
  vm_compute. reflexivity.
Defined.

(** X3.  A client is constructed only by a run that found the cache empty,
    and it is constructed with the key that run resolved, which is set: the
    environment variable when that is not empty, the secret otherwise. *)
Theorem X3_client_is_built_with_the_resolved_key :
  forall i s llm,
    In llm (constructions (run_events (app_py i) s)) ->
    llm_cache s = None
    /\ api_key llm = resolve_OPENAI_API_KEY i
    /\ is_set (api_key llm) = true
    /\ llm_cache (snd (app_py i s)) = Some llm.
Proof.
  intros i s llm.
  destruct (llm_cache s) as [l0|] eqn:L.
  { destruct (app_cached i s l0 L) as (_ & C & _). rewrite C. intros []. }
  destruct (is_set (resolve_OPENAI_API_KEY i)) eqn:K.
  2:{ run_trace (app_stops i s K). intros []. }
  destruct (app_effect i s) as (ev & T & [(C & E1 & E2)|(C & E1 & E2)]);
    rewrite (run_events_app _ _ _ T), E1; [intros []|].
  unfold construction. rewrite L. intros [<-|[]].
  rewrite C. unfold client. rewrite L. cbn [api_key].
  repeat split. exact K.
Qed.

Lemma X3_witness :
  llm_cache initial = None
  /\ api_key (client (Some (u "sk-secret")) initial)
     = resolve_OPENAI_API_KEY secret_key_submission
  /\ is_set (api_key (client (Some (u "sk-secret")) initial)) = true
  /\ llm_cache (snd (app_py secret_key_submission initial))
     = Some (client (Some (u "sk-secret")) initial).
Proof.
  apply X3_client_is_built_with_the_resolved_key.
  vm_compute. left. reflexivity.
Defined.

(** X4.  No run with a selection among the options of the radio ends in an
    exception, whatever the model does with the request: it ends normally
    when the key is set, and by [st.stop()] when it is not. *)
Theorem X4_no_exception_ends_a_run :
  forall i s,
    (radio_index i < List.length (keys PERSONAS))%nat ->
    fst (app_py i s)
    = if is_set (resolve_OPENAI_API_KEY i) then Ok tt else Stop.
Proof.
  intros i s H.
  destruct (is_set (resolve_OPENAI_API_KEY i)) eqn:K.
  2:{ now rewrite (app_stops i s K). }
  destruct (nth_error (keys PERSONAS) (radio_index i)) as [persona|] eqn:R.
  2:{ apply nth_error_None in R. lia. }
  destruct (form_submitted i) eqn:F.
  - destruct (blank (text_area_value i)) eqn:B.
    + now rewrite (app_blank i s K persona R F B).
    + pose proof (app_query i s K persona R F B) as Q. cbn zeta in Q.
      now rewrite Q.
  - now rewrite (app_idle i s K persona R F).
Qed.

Lemma X4_witness :
  fst (app_py failing_submission initial) = Ok tt
  /\ fst (app_py run_without_key initial) = Stop.
Proof.
  split.
  - apply (X4_no_exception_ends_a_run failing_submission initial).
    vm_compute. lia.
  - apply (X4_no_exception_ends_a_run run_without_key initial).
    vm_compute. lia.
Defined.

(** X5.  Whenever a run sends a request and the model answers it, the run
    shows the page, the spinner, the heading of the answer and then the
    answer, exactly as the model gave it; no error message is shown and the
    request is the only one. *)
Theorem X5_answer_is_shown_as_received :
  forall i s llm messages answer,
    In (llm_invoke llm messages) (run_events (app_py i) s) ->
    completion i llm messages = Text answer ->
    fst (app_py i s) = Ok tt
    /\ run_events (app_py i) s
       = page_events
         ++ [st_spinner SPINNER_TEXT]
         ++ construction (resolve_OPENAI_API_KEY i) s
         ++ [ llm_invoke llm messages;
              st_markdown ANSWER_HEADING;
              st_write answer ]
    /\ requests (run_events (app_py i) s) = [messages].
Proof.
  intros i s llm messages answer HIn HT.
  pose proof (In_llm_invoke _ _ _ HIn) as [HU HR].
  rewrite app_requests in HR.
  destruct (is_set (resolve_OPENAI_API_KEY i)) eqn:K; [|destruct HR].
  destruct (form_submitted i) eqn:F; [|destruct HR].
  destruct (blank (text_area_value i)) eqn:B; [destruct HR|].
  cbn [andb negb] in HR.
  destruct (nth_error (keys PERSONAS) (radio_index i)) as [persona|] eqn:R;
    [|destruct HR].
  destruct HR as [<-|[]].
  pose proof (app_query i s K persona R F B) as Q. cbn zeta in Q.
  revert HU. run_trace Q.
  rewrite !handles_used_app, handles_used_construction, observe_page_handles.
  cbn [handles_used List.app]. intros HU.
  assert (client (resolve_OPENAI_API_KEY i) s = llm) as E.
  { destruct (completion i (client _ _) _);
      cbn [handles_used List.app In] in HU;
      destruct HU as [HU|[]]; exact HU. }
  rewrite E in *. rewrite HT in *. rewrite Q. split; [reflexivity|].
  split; [reflexivity|].
  rewrite requests_app. cbn [requests List.app].
  rewrite requests_app, requests_construction. reflexivity.
Qed.

Lemma X5_witness :
  fst (app_py padded_submission initial) = Ok tt
  /\ run_events (app_py padded_submission) initial
     = page_events
       ++ [st_spinner SPINNER_TEXT]
       ++ construction (resolve_OPENAI_API_KEY padded_submission) initial
       ++ [ llm_invoke (client (Some (u "sk-test")) initial)
              [ SystemMessage
                  (get PERSONAS (u "データサイエンス") DEFAULT_SYSTEM_MSG);
                HumanMessage padded_text ];
            st_markdown ANSWER_HEADING;
            st_write (u "ok") ]
  /\ requests (run_events (app_py padded_submission) initial)
     = [[ SystemMessage
            (get PERSONAS (u "データサイエンス") DEFAULT_SYSTEM_MSG);
          HumanMessage padded_text ]].
Proof.
  apply X5_answer_is_shown_as_received.
  - vm_compute. do 10 right. left. reflexivity.
  - vm_compute. reflexivity.
Defined.

(** X6.  A run that is no submission draws the page and does nothing else,
    whatever is typed in the text area: no warning, no spinner, no request,
    and the cache is left as it was. *)
Theorem X6_run_without_submission_only_draws_the_page :
  forall i s,
    is_set (resolve_OPENAI_API_KEY i) = true ->
    (radio_index i < List.length (keys PERSONAS))%nat ->
    form_submitted i = false ->
    fst (app_py i s) = Ok tt
    /\ run_events (app_py i) s = page_events
    /\ llm_cache (snd (app_py i s)) = llm_cache s.
Proof.
  intros i s K R F.
  destruct (nth_error (keys PERSONAS) (radio_index i)) as [persona|] eqn:E.
  2:{ apply nth_error_None in E. lia. }
  run_trace (app_idle i s K persona E F).
  rewrite (app_idle i s K persona E F). repeat split.
Qed.

Lemma X6_witness :
  fst (app_py idle_run initial) = Ok tt
  /\ run_events (app_py idle_run) initial = page_events
  /\ llm_cache (snd (app_py idle_run initial)) = llm_cache initial.
Proof.
  apply X6_run_without_submission_only_draws_the_page.
  - vm_compute. reflexivity.
  - vm_compute. lia.
  - vm_compute. reflexivity.
Defined.

(** ** The emptiness test and [strip] *)

Section StripShape.

Lemma blank_exists s :
  blank s = false <-> exists c, In c s /\ isspace c = false.
Proof.
  unfold blank. induction s as [|c r IH]; simpl.
  - split; [discriminate|]. now intros (c & [] & _).
  - destruct (isspace c) eqn:E; simpl.
    + rewrite IH. split.
      * intros (x & H & Hx). exists x. auto.
      * intros (x & [<-|H] & Hx); [congruence|]. now exists x.
    + split; [|reflexivity]. intros _. exists c. auto.
Qed.

Lemma lstrip_split s :
  exists lead, s = lead ++ lstrip s /\ blank lead = true.
Proof.
  induction s as [|c r (lead & E & B)]; simpl.
  - now exists [].
  - destruct (isspace c) eqn:S.
    + exists (c :: lead). split.
      * simpl. now rewrite <- E.
      * unfold blank in *. simpl. now rewrite S.
    + now exists [].
Qed.

Lemma lstrip_snoc s c :
  isspace c = false -> lstrip (s ++ [c]) = lstrip s ++ [c].
Proof.
  intros S. induction s as [|x r IH]; simpl.
  - now rewrite S.
  - destruct (isspace x); [exact IH|reflexivity].
Qed.

Lemma rstrip_cons c r :
  isspace c = false -> rstrip (c :: r) = c :: rstrip r.
Proof.
  intros S. unfold rstrip. simpl.
  rewrite (lstrip_snoc _ _ S), rev_app_distr. reflexivity.
Qed.

Lemma rstrip_split s :
  exists trail, s = rstrip s ++ trail /\ blank trail = true.
Proof.
  unfold rstrip. destruct (lstrip_split (rev s)) as (l & E & B).
  exists (rev l). split.
  - rewrite <- rev_app_distr, <- E. now rewrite rev_involutive.
  - now rewrite blank_rev.
Qed.

End StripShape.

(** X7.  The emptiness test of the submit handler lets a text through
    exactly when it holds a character that is not white space; where that
    character stands, and what surrounds it, does not matter. *)
Theorem X7_guard_passes_text_with_a_visible_character :
  forall user_text,
    negb (truthy (strip user_text)) = false
    <-> exists c, In c user_text /\ isspace c = false.
Proof.
  intros user_text. rewrite strip_truthy, negb_involutive.
  apply blank_exists.
Qed.

Lemma X7_witness :
  exists c, In c padded_text /\ isspace c = false.
Proof.
  apply (proj1 (X7_guard_passes_text_with_a_visible_character padded_text)).
  vm_compute. reflexivity.
Defined.

(** X8.  [strip] removes white space at the two ends and nothing else: the
    text is the stripped text between a run of white space before it and
    one after it, and the stripped text neither starts nor ends with white
    space. *)
Theorem X8_strip_removes_only_surrounding_white_space :
  forall s,
    (exists lead trail,
        s = lead ++ strip s ++ trail
        /\ blank lead = true /\ blank trail = true)
    /\ (forall c, hd_error (strip s) = Some c -> isspace c = false)
    /\ (forall c, hd_error (rev (strip s)) = Some c -> isspace c = false).
Proof.
  intros s. split; [|split].
  - destruct (lstrip_split s) as (lead & E & B).
    destruct (rstrip_split (lstrip s)) as (trail & E' & B').
    exists lead, trail. unfold strip. rewrite <- E'. auto.
  - unfold strip. intros c.
    destruct (lstrip_head s) as [->|(x & r & -> & S)]; [discriminate|].
    rewrite (rstrip_cons _ _ S). now intros [= <-].
  - unfold strip, rstrip. rewrite rev_involutive. intros c.
    destruct (lstrip_head (rev (lstrip s))) as [->|(x & r & -> & S)];
      [discriminate|].
    now intros [= <-].
Qed.

Lemma X8_witness :
  hd_error (rev (strip padded_text)) = Some 101
  /\ isspace 101 = false.
Proof.
  split; [vm_compute; reflexivity|].
  apply (proj2 (proj2 (X8_strip_removes_only_surrounding_white_space
                         padded_text))).
  vm_compute. reflexivity.
Defined.

(** ** Requests over a process *)

Section Counting.

Lemma app_requests_count i s :
  List.length (requests (run_events (app_py i) s))
  = if sends_request i then 1%nat else 0%nat.
Proof.
  rewrite app_requests. unfold sends_request.
  destruct (is_set _ && form_submitted i && negb _); cbn [andb].
  - destruct (nth_error (keys PERSONAS) (radio_index i)) eqn:R.
    + assert (nth_error (keys PERSONAS) (radio_index i) <> None) as H
          by congruence.
      apply nth_error_Some in H. apply Nat.ltb_lt in H. now rewrite H.
    + apply nth_error_None in R. apply Nat.ltb_ge in R. now rewrite R.
  - reflexivity.
Qed.

End Counting.

(** X9.  Over the runs of a process, one request is sent for each run that
    is a submission with the key set, a text that is not blank and a
    selection among the options, and none for any other run; the state of
    the cache plays no part in it. *)
Theorem X9_one_request_per_accepted_submission :
  forall runs s,
    List.length (requests (trace (session runs s)))
    = (List.length (requests (trace s))
       + List.length (filter sends_request runs))%nat.
Proof.
  induction runs as [|i rest IH]; intros s; cbn [session filter].
  - cbn. lia.
  - rewrite IH, app_trace, requests_app, length_app, app_requests_count.
    destruct (sends_request i); cbn [List.length]; lia.
Qed.

(** ** The registry and the radio *)

Section Registry.

Context {V : Type}.

Lemma lookup_nodup (d : dict V) k v :
  NoDup (keys d) -> In (k, v) d -> lookup d k = Some v.
Proof.
  induction d as [|[k' v'] d IH]; simpl; [easy|].
  intros N [E|H].
  - injection E as -> ->. now rewrite str_eqb_refl.
  - inversion N as [|? ? NI N']; subst.
    destruct (str_eqb k' k) eqn:E.
    + apply str_eqb_eq in E. subst k'. exfalso. apply NI.
      unfold keys. apply in_map_iff. now exists (k, v).
    + now apply IH.
Qed.

End Registry.

Lemma PERSONAS_keys_nodup : NoDup (keys PERSONAS).
Proof.
  unfold PERSONAS, keys. cbn [map fst].
  repeat constructor; vm_compute;
    repeat (intros [H|H]; [discriminate H|revert H]); intros [].
Qed.

(** X10.  The labels of the registry are pairwise different, so the radio
    and the registry agree position by position: a submission with the
    n-th option selected sends the instruction of the n-th entry as its
    system message. *)
Theorem X10_selected_position_gives_its_entry :
  forall i s label instruction,
    nth_error PERSONAS (radio_index i) = Some (label, instruction) ->
    is_set (resolve_OPENAI_API_KEY i) = true ->
    form_submitted i = true ->
    blank (text_area_value i) = false ->
    NoDup (keys PERSONAS)
    /\ requests (run_events (app_py i) s)
       = [[ SystemMessage instruction; HumanMessage (text_area_value i) ]].
Proof.
  intros i s label instruction N K F B.
  split; [exact PERSONAS_keys_nodup|].
  rewrite app_requests, K, F, B. cbn [andb negb].
  unfold keys. rewrite (map_nth_error fst _ _ N). cbn [fst].
  rewrite (get_found _ _ _ _
             (lookup_nodup _ _ _ PERSONAS_keys_nodup (nth_error_In _ _ N))).
  reflexivity.
Qed.

Lemma X10_witness :
  NoDup (keys PERSONAS)
  /\ requests (run_events (app_py secret_key_submission) initial)
     = [[ SystemMessage
            (u "あなたはCX/サービスデザインの専門家です。"
             ++ u "ペルソナ・ジャーニー・価値仮説・MVP・検証方法・KPIを整理し、"
             ++ u "実装優先度（High/Medium/Low）付きで改善案を提示してください。");
          HumanMessage (text_area_value secret_key_submission) ]].
Proof.
  apply (X10_selected_position_gives_its_entry secret_key_submission initial
           (u "CX/サービスデザイン"));
    vm_compute; reflexivity.
Defined.

(** X11.  A request that fails does not cost the client: after any run that
    sent a request, answered or not, the handle it went through is in the
    cache, and the next run, a resubmission say, constructs nothing and
    sends what it sends through that same handle. *)
Theorem X11_resubmission_reuses_the_client :
  forall i next s llm messages,
    In (llm_invoke llm messages) (run_events (app_py i) s) ->
    llm_cache (snd (app_py i s)) = Some llm
    /\ constructions (run_events (app_py next) (snd (app_py i s))) = []
    /\ (forall l,
           In l (handles_used
                   (run_events (app_py next) (snd (app_py i s)))) ->
           l = llm).
Proof.
  intros i next s llm messages HIn.
  assert (llm_cache (snd (app_py i s)) = Some llm) as L.
  { pose proof (In_llm_invoke _ _ _ HIn) as [HU _].
    destruct (app_effect i s) as (ev & T & [(C & E1 & E2)|(C & E1 & E2)]);
      rewrite (run_events_app _ _ _ T), E2 in HU.
    - destruct HU.
    - destruct HU as [<-|[]]. exact C. }
  split; [exact L|]. exact (proj2 (app_cached next _ llm L)).
Qed.

Lemma X11_witness :
  llm_cache (snd (app_py failing_submission initial))
  = Some (client (Some (u "sk-test")) initial)
  /\ constructions
       (run_events (app_py other_key_submission)
          (snd (app_py failing_submission initial))) = []
  /\ (forall l,
         In l (handles_used
                 (run_events (app_py other_key_submission)
                    (snd (app_py failing_submission initial)))) ->
         l = client (Some (u "sk-test")) initial).
Proof.
  apply (X11_resubmission_reuses_the_client failing_submission
           other_key_submission initial
           (client (Some (u "sk-test")) initial)
           [ SystemMessage
               (get PERSONAS (u "データサイエンス") DEFAULT_SYSTEM_MSG);
             HumanMessage (u "hello") ]).
  vm_compute. do 10 right. left. reflexivity.
Defined.

(** X12.  Of the two places that configure the page, every run goes through
    exactly one, and before anything else: the configuration is the first
    event of the run and occurs once. *)
Theorem X12_page_is_configured_first_and_once :
  forall i s,
    exists rest,
      run_events (app_py i) s = st_set_page_config PAGE_TITLE :: rest
      /\ filter is_page_config rest = [].
Proof.
  intros i s.
  destruct (is_set (resolve_OPENAI_API_KEY i)) eqn:K.
  2:{ run_trace (app_stops i s K). eexists. split; reflexivity. }
  destruct (nth_error (keys PERSONAS) (radio_index i)) as [persona|] eqn:R.
  2:{ run_trace (app_index_error i s K R). eexists. split; reflexivity. }
  destruct (form_submitted i) eqn:F.
  2:{ run_trace (app_idle i s K persona R F). eexists. split; reflexivity. }
  destruct (blank (text_area_value i)) eqn:B.
  - run_trace (app_blank i s K persona R F B). eexists. split; reflexivity.
  - pose proof (app_query i s K persona R F B) as Q. cbn zeta in Q.
    run_trace Q. eexists. split; [reflexivity|].
    unfold construction.
    destruct (llm_cache s), (completion i _ _); reflexivity.
Qed.
